(** * MCP example servers: the calculator and the template server

    A shallow embedding of [simple-calculator/server.py] and
    [template/server.py], together with the fragment of the Python
    interpreter their handlers rely on: the numeric tower (bool, int,
    float) with its conversions, [str()] of scalars, [dict.get], and
    [try ... except Exception]. *)

From Stdlib Require Import ZArith List Bool Ascii String.
From Stdlib Require Import Floats.SpecFloat.
From stdpp Require Import gmap strings pretty.

Local Open Scope string_scope.
Local Open Scope Z_scope.

(** ** Python floats: IEEE 754 binary64 *)

Module PyFloat.

Definition prec : Z := 53.
Definition emax : Z := 1024.

Definition float : Type := spec_float.

Definition fadd : float -> float -> float := SFadd prec emax.
Definition fsub : float -> float -> float := SFsub prec emax.
Definition fmul : float -> float -> float := SFmul prec emax.
Definition fdiv : float -> float -> float := SFdiv prec emax.
Definition fsqrt : float -> float := SFsqrt prec emax.

Definition is_finite (f : float) : bool :=
  match f with
  | S754_zero _ | S754_finite _ _ _ => true
  | _ => false
  end.

Definition is_zero (f : float) : bool :=
  match f with S754_zero _ => true | _ => false end.

(** [float(n)]: the nearest double, ties to even; [None] stands for
    OverflowError ("int too large to convert to float"). *)
Definition of_int (n : Z) : option float :=
  let f := binary_normalize prec emax n 0 false in
  if is_finite f then Some f else None.

(** [n / d] on ints with [d <> 0]: the correctly rounded quotient; [None]
    stands for OverflowError ("integer division result too large for a
    float"). *)
Definition int_true_div (n d : Z) : option float :=
  match n, d with
  | Z0, _ => Some (S754_zero (d <? 0))
  | _, Z0 => None
  | _, _ =>
      let s := xorb (n <? 0) (d <? 0) in
      let '(mz, ez, lz) := SFdiv_core_binary prec emax (Z.abs n) 0 (Z.abs d) 0 in
      let f := binary_round_aux prec emax s mz ez lz in
      if is_finite f then Some f else None
  end.

(** The exact order between a float and an int, as Python compares them;
    [None] when the float is a NaN. *)
Definition compare_int (f : float) (n : Z) : option comparison :=
  match f with
  | S754_nan => None
  | S754_infinity s => Some (if s then Lt else Gt)
  | S754_zero _ => Some (0 ?= n)
  | S754_finite s m e =>
      let v := cond_Zopp s (Zpos m) in
      Some (if 0 <=? e then (v * 2 ^ e ?= n) else (v ?= n * 2 ^ (- e)))
  end.

(** The order between two floats; [None] when either is a NaN. *)
Definition compare : float -> float -> option comparison := SFcompare.

(** [int(f)]: truncation toward zero of a finite float. *)
Definition trunc (f : float) : option Z :=
  match f with
  | S754_zero _ => Some 0
  | S754_finite s m e =>
      Some (cond_Zopp s (if 0 <=? e then Zpos m * 2 ^ e else Zpos m / 2 ^ (- e)))
  | _ => None
  end.

(** *** [repr(float)]: the shortest decimal string that reads back as the
    same double, the closest one to it among the shortest. *)

Section Digits.
(** The double is [X * 2^E]; every real in [lo * 2^E, hi * 2^E] rounds to
    it, the ends included exactly when its mantissa is even. *)
Variables (X E lo hi : Z) (closed : bool).

(** [D * 10^k] against [B * 2^E], by cross multiplication. *)
Definition cmp_dec (D k B : Z) : comparison :=
  (D * 10 ^ Z.max k 0 * 2 ^ Z.max (- E) 0 ?= B * 2 ^ Z.max E 0 * 10 ^ Z.max (- k) 0).

Definition reads_back (D k : Z) : bool :=
  match cmp_dec D k lo, cmp_dec D k hi with
  | Gt, Lt => true
  | Eq, Lt | Gt, Eq => closed
  | _, _ => false
  end.

(** The least [d] from [start] on with [X * 2^E < 10^d]. *)
Fixpoint find_decpt (fuel : nat) (d : Z) : Z :=
  match fuel with
  | O => d
  | S fuel' => if cmp_dec 1 d X is Gt then d else find_decpt fuel' (d + 1)
  end.

Definition decpt : Z :=
  let nbits := Z.log2 X + 1 + E in
  find_decpt 8 ((nbits - 1) * 30103 / 100000 - 1).

(** With [n] digits: the decimals just below and just above the double. *)
Definition candidate (n : Z) : option (Z * Z) :=
  let k := decpt - n in
  let num := X * 2 ^ Z.max E 0 * 10 ^ Z.max (- k) 0 in
  let den := 2 ^ Z.max (- E) 0 * 10 ^ Z.max k 0 in
  let D := num / den in
  let r := num mod den in
  let below := reads_back D k in
  let above := reads_back (D + 1) k in
  match below, above with
  | true, true =>
      match r ?= den - r with
      | Lt => Some (D, k)
      | Gt => Some (D + 1, k)
      | Eq => Some (if Z.even D then D else D + 1, k)
      end
  | true, false => Some (D, k)
  | false, true => Some (D + 1, k)
  | false, false => None
  end.

Fixpoint shortest (fuel : nat) (n : Z) : Z * Z :=
  match fuel with
  | O => (X * 2 ^ Z.max E 0, 0)
  | S fuel' =>
      match candidate n with
      | Some Dk => Dk
      | None => shortest fuel' (n + 1)
      end
  end.
End Digits.

Fixpoint strip_zeros (fuel : nat) (D k : Z) : Z * Z :=
  match fuel with
  | O => (D, k)
  | S fuel' => if D mod 10 =? 0 then strip_zeros fuel' (D / 10) (k + 1) else (D, k)
  end.

(** The digits and the position of the decimal point of a positive finite
    double [m * 2^e]: its value is [0.digits * 10^point]. *)
Definition digits_of (m : positive) (e : Z) : string * Z :=
  let boundary := (Zpos m =? 2 ^ 52) && (-1074 <? e) in
  let X := if boundary then 4 * Zpos m else 2 * Zpos m in
  let E := if boundary then e - 2 else e - 1 in
  let lo := X - 1 in
  let hi := if boundary then X + 2 else X + 1 in
  let '(D, k) := shortest X E lo hi (Z.even (Zpos m)) 17 1 in
  let '(D', k') := strip_zeros 20 D k in
  let ds := pretty D' in
  (ds, k' + Z.of_nat (String.length ds)).

Fixpoint zeros (n : nat) : string :=
  match n with O => "" | S n' => String "0" (zeros n') end.

Definition exponent_part (x : Z) : string :=
  (if x <? 0 then "e-" else "e+") +:+
  (if Z.abs x <? 10 then "0" else "") +:+ pretty (Z.abs x).

Definition format_digits (ds : string) (point : Z) : string :=
  let n := String.length ds in
  if (point <=? -4) || (16 <? point) then
    substring 0 1 ds +:+
    (if (1 <? n)%nat then "." +:+ substring 1 (n - 1) ds else "") +:+
    exponent_part (point - 1)
  else if point <=? 0 then
    "0." +:+ zeros (Z.to_nat (- point)) +:+ ds
  else if Z.of_nat n <=? point then
    ds +:+ zeros (Z.to_nat point - n) +:+ ".0"
  else
    substring 0 (Z.to_nat point) ds +:+ "." +:+
    substring (Z.to_nat point) (n - Z.to_nat point) ds.

Definition repr (f : float) : string :=
  match f with
  | S754_nan => "nan"
  | S754_infinity s => if s then "-inf" else "inf"
  | S754_zero s => if s then "-0.0" else "0.0"
  | S754_finite s m e =>
      let '(ds, point) := digits_of m e in
      (if s then "-" else "") +:+ format_digits ds point
  end.

End PyFloat.

(** ** Python values, exceptions and the operations of the handlers *)

Module Py.
Import PyFloat.

(** What [arguments: Dict[str, Any]] can hold: the values JSON decodes to. *)
#[local] Set Warnings "-register-all".
Inductive value : Type :=
| VNone
| VBool (b : bool)
| VInt (n : Z)
| VFloat (f : float)
| VStr (s : string)
| VList (l : list value)
| VDict (d : list (string * value)).

(** An instance of a subclass of [Exception]; [err_str] is [str(e)]. *)
Record error : Type := Error { err_class : string; err_str : string }.

(** What a computation can raise: an [Exception], or an exception outside
    that hierarchy (SystemExit, KeyboardInterrupt, ...), which
    [except Exception] lets through. *)
Inductive raised : Type :=
| Exc (e : error)
| BaseExc (cls : string).

Inductive outcome (A : Type) : Type :=
| Return (a : A)
| Raise (r : raised).
Arguments Return {A} a.
Arguments Raise {A} r.

(** The interpreter state a handler can touch: the generator behind
    [random] and what [logger.error] has written. *)
Record state (G : Type) : Type := State { rng : G; log : list string }.
Arguments State {G} rng log.
Arguments rng {G} s.
Arguments log {G} s.

(** *** The monad of handler bodies: state and exceptions *)

Section Monad.
Context {G : Type}.

Definition M (A : Type) : Type := state G -> outcome A * state G.

Definition ret {A} (a : A) : M A := fun s => (Return a, s).

Definition raise {A} (r : raised) : M A := fun s => (Raise r, s).

Definition bind {A B} (m : M A) (k : A -> M B) : M B :=
  fun s =>
    match m s with
    | (Return a, s') => k a s'
    | (Raise r, s') => (Raise r, s')
    end.

Definition lift {A} (x : A + error) : M A :=
  match x with
  | inl a => ret a
  | inr e => raise (Exc e)
  end.

(** [try: body  except Exception as e: handler(e)] *)
Definition try_except {A} (body : M A) (handler : error -> M A) : M A :=
  fun s =>
    match body s with
    | (Raise (Exc e), s') => handler e s'
    | other => other
    end.

(** [logger.error(msg)] *)
Definition logger_error (msg : string) : M unit :=
  fun s => (Return tt, State (rng s) (log s ++ [msg])).
End Monad.

Notation "x <- m ;; k" := (bind m (fun x => k))
  (at level 100, m at next level, right associativity).
Notation "m ;;; k" := (bind m (fun _ => k))
  (at level 100, right associativity).

(** *** The numeric tower *)

Inductive num : Type :=
| NInt (n : Z)
| NFloat (f : float).

(** bool is a subclass of int: [True] counts as 1. *)
Definition as_num (v : value) : option num :=
  match v with
  | VBool b => Some (NInt (Z.b2z b))
  | VInt n => Some (NInt n)
  | VFloat f => Some (NFloat f)
  | _ => None
  end.

Definition overflow_int_to_float : error :=
  Error "OverflowError" "int too large to convert to float".

Definition to_float (x : num) : float + error :=
  match x with
  | NFloat f => inl f
  | NInt n =>
      match of_int n with
      | Some f => inl f
      | None => inr overflow_int_to_float
      end
  end.

(** Float arithmetic on two numbers at least one of which is a float. *)
Definition float_op (op : float -> float -> float) (x y : num) : value + error :=
  match to_float x with
  | inr e => inr e
  | inl fx =>
      match to_float y with
      | inr e => inr e
      | inl fy => inl (VFloat (op fx fy))
      end
  end.

Definition num_add (x y : num) : value + error :=
  match x, y with
  | NInt a, NInt b => inl (VInt (a + b))
  | _, _ => float_op fadd x y
  end.

Definition num_sub (x y : num) : value + error :=
  match x, y with
  | NInt a, NInt b => inl (VInt (a - b))
  | _, _ => float_op fsub x y
  end.

Definition num_mul (x y : num) : value + error :=
  match x, y with
  | NInt a, NInt b => inl (VInt (a * b))
  | _, _ => float_op fmul x y
  end.

Definition num_is_zero (x : num) : bool :=
  match x with
  | NInt n => n =? 0
  | NFloat f => is_zero f
  end.

(** [x / y]: true division, always a float.  Both operands are converted
    before the divisor is tested. *)
Definition num_truediv (x y : num) : value + error :=
  match x, y with
  | NInt a, NInt b =>
      if b =? 0 then inr (Error "ZeroDivisionError" "division by zero")
      else
        match int_true_div a b with
        | Some f => inl (VFloat f)
        | None =>
            inr (Error "OverflowError" "integer division result too large for a float")
        end
  | _, _ =>
      match to_float x with
      | inr e => inr e
      | inl fx =>
          match to_float y with
          | inr e => inr e
          | inl fy =>
              if num_is_zero y then inr (Error "ZeroDivisionError" "float division by zero")
              else inl (VFloat (fdiv fx fy))
          end
      end
  end.

(** The exact order between two numbers; [None] when one is a NaN. *)
Definition num_compare (x y : num) : option comparison :=
  match x, y with
  | NInt a, NInt b => Some (a ?= b)
  | NFloat f, NInt b => compare_int f b
  | NInt a, NFloat f => option_map CompOpp (compare_int f a)
  | NFloat f, NFloat g => compare f g
  end.

Definition num_lt (x y : num) : bool :=
  match num_compare x y with Some Lt => true | _ => false end.

Definition num_gt (x y : num) : bool :=
  match num_compare x y with Some Gt => true | _ => false end.

Definition num_eq (x y : num) : bool :=
  match num_compare x y with Some Eq => true | _ => false end.

(** [int(x)] *)
Definition num_int (x : num) : Z + error :=
  match x with
  | NInt n => inl n
  | NFloat f =>
      match trunc f with
      | Some n => inl n
      | None =>
          match f with
          | S754_nan => inr (Error "ValueError" "cannot convert float NaN to integer")
          | _ => inr (Error "OverflowError" "cannot convert float infinity to integer")
          end
      end
  end.

Fixpoint product_upto (k : nat) : Z :=
  match k with
  | O => 1
  | S k' => Z.of_nat k * product_upto k'
  end.

(** [math.factorial(n)] on an int. *)
Definition math_factorial (n : Z) : Z + error :=
  if n <? 0 then inr (Error "ValueError" "factorial() not defined for negative values")
  else inl (product_upto (Z.to_nat n)).

Definition type_name (v : value) : string :=
  match v with
  | VNone => "NoneType"
  | VBool _ => "bool"
  | VInt _ => "int"
  | VFloat _ => "float"
  | VStr _ => "str"
  | VList _ => "list"
  | VDict _ => "dict"
  end.

(** [math.sqrt(v)] *)
Definition math_sqrt (v : value) : value + error :=
  match as_num v with
  | None => inr (Error "TypeError" ("must be real number, not " +:+ type_name v))
  | Some x =>
      match to_float x with
      | inr e => inr e
      | inl f =>
          match fsqrt f with
          | S754_nan =>
              match f with
              | S754_nan => inl (VFloat S754_nan)
              | _ => inr (Error "ValueError" "math domain error")
              end
          | r => inl (VFloat r)
          end
      end
  end.

(** *** What lies outside the tower

    Operators applied to strings, lists, dicts and None (concatenation,
    repetition, lexicographic order, TypeError), powers that leave the
    integers, [int()] of a string, [str()] of a container and the draws of
    [random] are the interpreter's.  They are taken as given; whatever
    they raise is an [Exception]. *)

Inductive binop : Type := Add | Sub | Mul | TrueDiv | Pow.
Inductive cmpop : Type := Less | Greater.

Record interp (G : Type) : Type := Interp {
  dyn_binop : binop -> value -> value -> value + error;
  dyn_compare : cmpop -> value -> value -> bool + error;
  dyn_int : value -> Z + error;
  dyn_str : value -> string;
  draw : Z -> Z -> G -> Z * G;
}.
Arguments dyn_binop {G} i op a b.
Arguments dyn_compare {G} i op a b.
Arguments dyn_int {G} i v.
Arguments dyn_str {G} i v.
Arguments draw {G} i lo hi g.

Section Operations.
Context {G : Type} (I : interp G).

Definition binary (op : binop) (f : num -> num -> value + error)
    (a b : value) : value + error :=
  match as_num a, as_num b with
  | Some x, Some y => f x y
  | _, _ => dyn_binop I op a b
  end.

(** [a + b], [a - b], [a * b], [a / b] *)
Definition py_add : value -> value -> value + error := binary Add num_add.
Definition py_sub : value -> value -> value + error := binary Sub num_sub.
Definition py_mul : value -> value -> value + error := binary Mul num_mul.
Definition py_truediv : value -> value -> value + error := binary TrueDiv num_truediv.

(** [a ** b]: exact on an int raised to a non-negative int. *)
Definition py_pow (a b : value) : value + error :=
  match as_num a, as_num b with
  | Some (NInt x), Some (NInt y) =>
      if 0 <=? y then inl (VInt (x ^ y)) else dyn_binop I Pow a b
  | _, _ => dyn_binop I Pow a b
  end.

Definition compare_with (op : cmpop) (f : num -> num -> bool)
    (a b : value) : bool + error :=
  match as_num a, as_num b with
  | Some x, Some y => inl (f x y)
  | _, _ => dyn_compare I op a b
  end.

(** [a < b], [a > b] *)
Definition py_lt : value -> value -> bool + error := compare_with Less num_lt.
Definition py_gt : value -> value -> bool + error := compare_with Greater num_gt.

(** [v == n] for an int literal [n]: no JSON value but a number equals
    a number, and [==] does not raise. *)
Definition py_eq_int (v : value) (n : Z) : bool :=
  match as_num v with
  | Some x => num_eq x (NInt n)
  | None => false
  end.

(** [int(v)] *)
Definition py_int (v : value) : Z + error :=
  match as_num v with
  | Some x => num_int x
  | None => dyn_int I v
  end.

(** [str(v)], which is what a replacement field [{v}] of an f-string
    inserts. *)
Definition py_str (v : value) : string :=
  match v with
  | VNone => "None"
  | VBool b => if b then "True" else "False"
  | VInt n => pretty n
  | VFloat f => repr f
  | VStr s => s
  | VList _ | VDict _ => dyn_str I v
  end.

(** [random.randint(lo, hi)] *)
Definition random_randint (lo hi : Z) : M Z :=
  if hi <? lo then raise (Exc (Error "ValueError" "empty range for randrange()"))
  else fun s => let '(n, g) := draw I lo hi (rng s) in (Return n, State g (log s)).
End Operations.

(** [d.get(key, default)] *)
Definition get (d : gmap string value) (key : string) (default : value) : value :=
  match d !! key with
  | Some v => v
  | None => default
  end.


(** [needle in hay] *)
Fixpoint mentions (needle hay : string) : bool :=
  String.prefix needle hay ||
  match hay with
  | EmptyString => false
  | String _ rest => mentions needle rest
  end.


(** A computation that raises nothing [except Exception] would let
    through, and whose results satisfy [P]. *)
Definition catchable {G A : Type} (P : A -> Prop) (m : M (G:=G) A) : Prop :=
  forall s,
    match m s with
    | (Return a, _) => P a
    | (Raise (Exc _), _) => True
    | (Raise (BaseExc _), _) => False
    end.

(** A computation that neither reads nor writes the state. *)
Definition stateless {G A : Type} (m : M (G:=G) A) : Prop :=
  exists o, forall s, m s = (o, s).

(** A computation that leaves what [logger.error] has written as it is. *)
Definition keeps_log {G A : Type} (m : M (G:=G) A) : Prop :=
  forall s, log (snd (m s)) = log s.

(** A computation whose outcome, and whose use of the generator, depend on
    the state through the generator alone. *)
Definition rng_determined {G A : Type} (m : M (G:=G) A) : Prop :=
  forall s1 s2,
    rng s1 = rng s2 ->
    fst (m s1) = fst (m s2) /\ rng (snd (m s1)) = rng (snd (m s2)).

End Py.

(** ** The classes of [mcp.types] the servers build *)

Module Mcp.
Import Py.

(** [TextContent(type=..., text=...)] *)
Record TextContent : Type := mkTextContent { tc_type : string; tc_text : string }.

(** [TextResourceContents(type=..., text=..., uri=...)] *)
Record TextResourceContents : Type :=
  mkTextResourceContents { trc_type : string; trc_text : string; trc_uri : string }.

(** [CallToolResult(content=[...])] *)
Record CallToolResult : Type := mkCallToolResult { content : list TextContent }.

(** The blocks the servers put into [ReadResourceResult.contents]: the
    calculator passes [TextResourceContents], the template [TextContent]. *)
Inductive block : Type :=
| Text (c : TextContent)
| TextResource (c : TextResourceContents).

(** [ReadResourceResult(contents=[...])] *)
Record ReadResourceResult : Type := mkReadResourceResult { contents : list block }.

Definition block_text (b : block) : string :=
  match b with
  | Text c => tc_text c
  | TextResource c => trc_text c
  end.


(** One entry of [inputSchema["properties"]]. *)
Record Property : Type := mkProperty {
  prop_type : string;
  prop_description : string;
  prop_default : option value;
}.

(** [inputSchema={"type": ..., "properties": {...}, "required": [...]}] *)
Record InputSchema : Type := mkInputSchema {
  schema_type : string;
  properties : list (string * Property);
  required : list string;
}.

(** [Tool(name=..., description=..., inputSchema=...)] *)
Record Tool : Type := mkTool {
  tool_name : string;
  tool_description : string;
  inputSchema : InputSchema;
}.

(** [Resource(uri=..., name=..., description=..., mimeType=...)] *)
Record Resource : Type := mkResource {
  res_uri : string;
  res_name : string;
  res_description : string;
  mimeType : string;
}.

End Mcp.

(** ** simple-calculator/server.py *)

Module Calculator.
Import PyFloat Py Mcp.

Definition number (description : string) : Property :=
  mkProperty "number" description None.

(** [handle_list_tools] *)
Definition handle_list_tools : list Tool := [
  mkTool "add" "Add two numbers together"
    (mkInputSchema "object"
       [("a", number "First number to add");
        ("b", number "Second number to add")]
       ["a"; "b"]);
  mkTool "subtract" "Subtract second number from first number"
    (mkInputSchema "object"
       [("a", number "Number to subtract from");
        ("b", number "Number to subtract")]
       ["a"; "b"]);
  mkTool "multiply" "Multiply two numbers"
    (mkInputSchema "object"
       [("a", number "First number to multiply");
        ("b", number "Second number to multiply")]
       ["a"; "b"]);
  mkTool "divide" "Divide first number by second number"
    (mkInputSchema "object"
       [("a", number "Dividend (number to be divided)");
        ("b", number "Divisor (number to divide by)")]
       ["a"; "b"]);
  mkTool "power" "Raise first number to the power of second number"
    (mkInputSchema "object"
       [("base", number "Base number");
        ("exponent", number "Exponent (power)")]
       ["base"; "exponent"]);
  mkTool "square_root" "Calculate the square root of a number"
    (mkInputSchema "object"
       [("number", number "Number to find square root of")]
       ["number"]);
  mkTool "random_number" "Generate a random number between min and max (inclusive)"
    (mkInputSchema "object"
       [("min", mkProperty "number" "Minimum value (inclusive)" (Some (VInt 0)));
        ("max", mkProperty "number" "Maximum value (inclusive)" (Some (VInt 100)))]
       []);
  mkTool "factorial" "Calculate the factorial of a number (n!)"
    (mkInputSchema "object"
       [("number",
         mkProperty "integer" "Number to calculate factorial for (must be non-negative)" None)]
       ["number"])
].

(** [handle_list_resources] *)
Definition handle_list_resources : list Resource := [
  mkResource "calculator://info" "Calculator Information"
    "Information about this simple calculator server" "text/plain";
  mkResource "calculator://help" "Help Documentation"
    "Detailed help and usage examples" "text/markdown";
  mkResource "calculator://examples" "Usage Examples"
    "Example calculations and tool usage" "text/markdown"
].

Definition tool_names : list string := map tool_name handle_list_tools.

Definition resource_uris : list string := map res_uri handle_list_resources.

(** The second argument of every [arguments.get(key, ...)] of
    [handle_call_tool], by tool and key. *)
Definition fallbacks : list (string * string * value) := [
  ("add", "a", VInt 0); ("add", "b", VInt 0);
  ("subtract", "a", VInt 0); ("subtract", "b", VInt 0);
  ("multiply", "a", VInt 0); ("multiply", "b", VInt 0);
  ("divide", "a", VInt 0); ("divide", "b", VInt 1);
  ("power", "base", VInt 0); ("power", "exponent", VInt 1);
  ("square_root", "number", VInt 0);
  ("random_number", "min", VInt 0); ("random_number", "max", VInt 100);
  ("factorial", "number", VInt 0)
].

(** The document served at [calculator://info]. *)
Definition info : string := "
Simple Calculator MCP Server
============================

This is an educational MCP server that demonstrates:
- Basic tool implementation
- Input validation and error handling
- Mathematical operations
- Resource management
- Logging and debugging

Version: 1.0.0
Author: MCP Learning Project

Available Tools:
- add: Add two numbers
- subtract: Subtract two numbers  
- multiply: Multiply two numbers
- divide: Divide two numbers
- power: Raise to power
- square_root: Calculate square root
- random_number: Generate random number
- factorial: Calculate factorial
".

Section Server.
Context {G : Type} (I : interp G).
(** The Markdown documents served at [calculator://help] and
    [calculator://examples]. *)
Variables (help_text examples : string).

Local Abbreviation str := (py_str I).

Definition text (s : string) : list TextContent := [mkTextContent "text" s].

(** The branches of [handle_call_tool], in the order of its [if]/[elif]
    chain. *)

Definition tool_add (arguments : gmap string value) : M (G:=G) CallToolResult :=
  let a := get arguments "a" (VInt 0) in
  let b := get arguments "b" (VInt 0) in
  result <- lift (py_add I a b) ;;
  ret (mkCallToolResult
         (text (str a +:+ " + " +:+ str b +:+ " = " +:+ str result))).

Definition tool_subtract (arguments : gmap string value) : M (G:=G) CallToolResult :=
  let a := get arguments "a" (VInt 0) in
  let b := get arguments "b" (VInt 0) in
  result <- lift (py_sub I a b) ;;
  ret (mkCallToolResult
         (text (str a +:+ " - " +:+ str b +:+ " = " +:+ str result))).

Definition tool_multiply (arguments : gmap string value) : M (G:=G) CallToolResult :=
  let a := get arguments "a" (VInt 0) in
  let b := get arguments "b" (VInt 0) in
  result <- lift (py_mul I a b) ;;
  ret (mkCallToolResult
         (text (str a +:+ " × " +:+ str b +:+ " = " +:+ str result))).

Definition tool_divide (arguments : gmap string value) : M (G:=G) CallToolResult :=
  let a := get arguments "a" (VInt 0) in
  let b := get arguments "b" (VInt 1) in
  if py_eq_int b 0 then
    ret (mkCallToolResult (text "Error: Division by zero is not allowed"))
  else
    result <- lift (py_truediv I a b) ;;
    ret (mkCallToolResult
           (text (str a +:+ " ÷ " +:+ str b +:+ " = " +:+ str result))).

Definition tool_power (arguments : gmap string value) : M (G:=G) CallToolResult :=
  let base := get arguments "base" (VInt 0) in
  let exponent := get arguments "exponent" (VInt 1) in
  result <- lift (py_pow I base exponent) ;;
  ret (mkCallToolResult
         (text (str base +:+ "^" +:+ str exponent +:+ " = " +:+ str result))).

Definition tool_square_root (arguments : gmap string value) : M (G:=G) CallToolResult :=
  let number := get arguments "number" (VInt 0) in
  negative <- lift (py_lt I number (VInt 0)) ;;
  if negative : bool then
    ret (mkCallToolResult
           (text "Error: Cannot calculate square root of negative number"))
  else
    result <- lift (math_sqrt number) ;;
    ret (mkCallToolResult (text ("√" +:+ str number +:+ " = " +:+ str result))).

Definition tool_random_number (arguments : gmap string value) : M (G:=G) CallToolResult :=
  let min_val := get arguments "min" (VInt 0) in
  let max_val := get arguments "max" (VInt 100) in
  inverted <- lift (py_gt I min_val max_val) ;;
  if inverted : bool then
    ret (mkCallToolResult
           (text "Error: Minimum value cannot be greater than maximum value"))
  else
    lo <- lift (py_int I min_val) ;;
    hi <- lift (py_int I max_val) ;;
    result <- random_randint I lo hi ;;
    ret (mkCallToolResult
           (text ("Random number between " +:+ str min_val +:+ " and " +:+
                  str max_val +:+ ": " +:+ pretty result))).

Definition tool_factorial (arguments : gmap string value) : M (G:=G) CallToolResult :=
  let number := get arguments "number" (VInt 0) in
  negative <- lift (py_lt I number (VInt 0)) ;;
  if negative : bool then
    ret (mkCallToolResult
           (text "Error: Factorial is not defined for negative numbers"))
  else
    too_large <- lift (py_gt I number (VInt 170)) ;;
    if too_large : bool then
      ret (mkCallToolResult
             (text "Error: Number too large for factorial calculation"))
    else
      n <- lift (py_int I number) ;;
      result <- lift (math_factorial n) ;;
      ret (mkCallToolResult (text (str number +:+ "! = " +:+ pretty result))).

(** The [try] block of [handle_call_tool]. *)
Definition call_tool_body (name : string) (arguments : gmap string value)
    : M (G:=G) CallToolResult :=
  if (name =? "add")%string then tool_add arguments
  else if (name =? "subtract")%string then tool_subtract arguments
  else if (name =? "multiply")%string then tool_multiply arguments
  else if (name =? "divide")%string then tool_divide arguments
  else if (name =? "power")%string then tool_power arguments
  else if (name =? "square_root")%string then tool_square_root arguments
  else if (name =? "random_number")%string then tool_random_number arguments
  else if (name =? "factorial")%string then tool_factorial arguments
  else ret (mkCallToolResult (text ("Unknown tool: " +:+ name))).

(** The chain of [call_tool_body] as a table. *)
Definition handlers : list (string * (gmap string value -> M (G:=G) CallToolResult)) := [
  ("add", tool_add);
  ("subtract", tool_subtract);
  ("multiply", tool_multiply);
  ("divide", tool_divide);
  ("power", tool_power);
  ("square_root", tool_square_root);
  ("random_number", tool_random_number);
  ("factorial", tool_factorial)
].

(** [handle_call_tool] *)
Definition handle_call_tool (name : string) (arguments : gmap string value)
    : M (G:=G) CallToolResult :=
  try_except (call_tool_body name arguments)
    (fun e =>
       logger_error ("Error in tool call " +:+ name +:+ ": " +:+ err_str e) ;;;
       ret (mkCallToolResult (text ("Error: " +:+ err_str e)))).

Definition resource_text (s uri : string) : list block :=
  [TextResource (mkTextResourceContents "text" s uri)].

(** The [try] block of [handle_read_resource]. *)
Definition read_resource_body (uri : string) : M (G:=G) ReadResourceResult :=
  if (uri =? "calculator://info")%string then
    ret (mkReadResourceResult (resource_text info uri))
  else if (uri =? "calculator://help")%string then
    ret (mkReadResourceResult (resource_text help_text uri))
  else if (uri =? "calculator://examples")%string then
    ret (mkReadResourceResult (resource_text examples uri))
  else
    ret (mkReadResourceResult (resource_text ("Resource not found: " +:+ uri) uri)).

(** [handle_read_resource] *)
Definition handle_read_resource (uri : string) : M (G:=G) ReadResourceResult :=
  try_except (read_resource_body uri)
    (fun e =>
       logger_error ("Error reading resource " +:+ uri +:+ ": " +:+ err_str e) ;;;
       ret (mkReadResourceResult (resource_text ("Error: " +:+ err_str e) uri))).

(** The chain of [read_resource_body] as a table: the document behind each
    URI it compares with. *)
Definition documents : list (string * string) := [
  ("calculator://info", info);
  ("calculator://help", help_text);
  ("calculator://examples", examples)
].
End Server.

End Calculator.

(** ** template/server.py *)

Module Template.
Import Py Mcp.

Definition string_property (description : string) : Property :=
  mkProperty "string" description None.

(** [handle_list_tools] *)
Definition handle_list_tools : list Tool := [
  mkTool "echo" "Echo back the provided text"
    (mkInputSchema "object"
       [("text", string_property "Text to echo back")]
       ["text"]);
  mkTool "calculate" "Perform basic arithmetic calculations"
    (mkInputSchema "object"
       [("expression",
         string_property "Mathematical expression to evaluate (e.g., '2 + 2')")]
       ["expression"])
].

(** [handle_list_resources] *)
Definition handle_list_resources : list Resource := [
  mkResource "template://info" "Server Information"
    "Information about this template server" "text/plain";
  mkResource "template://help" "Help Documentation"
    "Help and usage information" "text/markdown"
].

Definition tool_names : list string := map tool_name handle_list_tools.

Definition resource_uris : list string := map res_uri handle_list_resources.

(** The second argument of every [arguments.get(key, ...)] of
    [handle_call_tool], by tool and key. *)
Definition fallbacks : list (string * string * value) := [
  ("echo", "text", VStr "");
  ("calculate", "expression", VStr "")
].

(** The document served at [template://info]. *)
Definition info : string := "
MCP Server Template
==================

This is a template MCP server that demonstrates:
- Basic tool implementation
- Resource handling
- Error management
- Logging and debugging

Version: 1.0.0
Author: Template Author
".

Section Server.
Context {G : Type} (I : interp G).
(** [eval(expression)] followed by [str()] of its result, which is all
    the handler does with it: the interpreter's, taken as given.  The
    expression is assumed to leave the interpreter's globals alone; it
    may raise anything, [SystemExit] included. *)
Variable eval : value -> outcome string.
(** The Markdown document served at [template://help]. *)
Variable help_text : string.

Local Abbreviation str := (py_str I).

Definition text (s : string) : list TextContent := [mkTextContent "text" s].

Definition tool_echo (arguments : gmap string value) : M (G:=G) CallToolResult :=
  let text_ := get arguments "text" (VStr "") in
  ret (mkCallToolResult (text ("Echo: " +:+ str text_))).

Definition tool_calculate (arguments : gmap string value) : M (G:=G) CallToolResult :=
  let expression := get arguments "expression" (VStr "") in
  try_except
    (result <- (fun s => (eval expression, s)) ;;
     ret (mkCallToolResult (text ("Result: " +:+ result))))
    (fun e => ret (mkCallToolResult (text ("Error: " +:+ err_str e)))).

(** The outer [try] block of [handle_call_tool]. *)
Definition call_tool_body (name : string) (arguments : gmap string value)
    : M (G:=G) CallToolResult :=
  if (name =? "echo")%string then tool_echo arguments
  else if (name =? "calculate")%string then tool_calculate arguments
  else ret (mkCallToolResult (text ("Unknown tool: " +:+ name))).

(** The chain of [call_tool_body] as a table. *)
Definition handlers : list (string * (gmap string value -> M (G:=G) CallToolResult)) := [
  ("echo", tool_echo);
  ("calculate", tool_calculate)
].

(** [handle_call_tool] *)
Definition handle_call_tool (name : string) (arguments : gmap string value)
    : M (G:=G) CallToolResult :=
  try_except (call_tool_body name arguments)
    (fun e =>
       logger_error ("Error in tool call " +:+ name +:+ ": " +:+ err_str e) ;;;
       ret (mkCallToolResult (text ("Error: " +:+ err_str e)))).

(** The [try] block of [handle_read_resource]. *)
Definition read_resource_body (uri : string) : M (G:=G) ReadResourceResult :=
  if (uri =? "template://info")%string then
    ret (mkReadResourceResult [Text (mkTextContent "text" info)])
  else if (uri =? "template://help")%string then
    ret (mkReadResourceResult [Text (mkTextContent "text" help_text)])
  else
    ret (mkReadResourceResult
           [Text (mkTextContent "text" ("Resource not found: " +:+ uri))]).

(** [handle_read_resource] *)
Definition handle_read_resource (uri : string) : M (G:=G) ReadResourceResult :=
  try_except (read_resource_body uri)
    (fun e =>
       logger_error ("Error reading resource " +:+ uri +:+ ": " +:+ err_str e) ;;;
       ret (mkReadResourceResult [Text (mkTextContent "text" ("Error: " +:+ err_str e))])).

(** The chain of [read_resource_body] as a table: the document behind each
    URI it compares with. *)
Definition documents : list (string * string) := [
  ("template://info", info);
  ("template://help", help_text)
].
End Server.

End Template.

(** ** Running the model *)

Module Run.
Import PyFloat Py Mcp.

(** An interpreter for requests that stay inside the numeric tower: outside
    it every operator raises TypeError, and [random] draws the lower
    bound. *)
Definition tower_only : interp unit := {|
  dyn_binop := fun _ _ _ => inr (Error "TypeError" "unsupported operand type(s)");
  dyn_compare := fun _ _ _ => inr (Error "TypeError" "comparison not supported");
  dyn_int := fun _ => inr (Error "TypeError" "int() argument must be a string or a real number");
  dyn_str := fun _ => "[...]";
  draw := fun lo _ g => (lo, g);
|}.

(** [eval] on the expressions used below. *)
Definition eval_sample (expression : value) : outcome string :=
  match expression with
  | VStr e =>
      if (e =? "10 + 5 * 2")%string then Return "20"
      else if (e =? "1/0")%string then
        Raise (Exc (Error "ZeroDivisionError" "division by zero"))
      else if (e =? "exit()")%string then Raise (BaseExc "SystemExit")
      else Raise (Exc (Error "SyntaxError" "invalid syntax"))
  | _ =>
      Raise (Exc (Error "TypeError" "eval() arg 1 must be a string, bytes or code object"))
  end.

Definition fresh : state unit := State tt [].

(** The float nearest to [n / d]. *)
Definition ratio (n d : Z) : float :=
  match int_true_div n d with Some f => f | None => S754_nan end.

Definition calc (name : string) (arguments : gmap string value) :=
  Calculator.handle_call_tool tower_only name arguments fresh.
Definition tmpl (name : string) (arguments : gmap string value) :=
  Template.handle_call_tool tower_only eval_sample name arguments fresh.
End Run.

(** * Properties *)

Import PyFloat Py Mcp Run.

(** ** The model run on recorded behaviour

    What CPython prints for some doubles, and the calls of
    [simple-calculator/test-client.py] and
    [examples/basic/simple-mcp-client.py]. *)

Example repr_shortest :
  map repr [ratio 1 10; ratio 1 3; ratio 2 3; ratio 5 1; ratio 1 10000;
            ratio 1 100000; ratio (10 ^ 15) 1; ratio (10 ^ 16) 1;
            ratio (10 ^ 23) 1; ratio 123456789012345678 1; ratio (-7) 2]
  = ["0.1"; "0.3333333333333333"; "0.6666666666666666"; "5.0"; "0.0001";
     "1e-05"; "1000000000000000.0"; "1e+16";
     "1e+23"; "1.2345678901234568e+17"; "-3.5"].
Proof. vm_compute. reflexivity. Qed.

Example repr_extremes :
  map repr [S754_finite false (2 ^ 53 - 1) 971; S754_finite false 1 (-1074);
            S754_finite false (2 ^ 52) (-1074); fadd (ratio 1 10) (ratio 2 10);
            S754_zero true; S754_infinity false; S754_nan]
  = ["1.7976931348623157e+308"; "5e-324";
     "2.2250738585072014e-308"; "0.30000000000000004";
     "-0.0"; "inf"; "nan"].
Proof. vm_compute. reflexivity. Qed.

Example float_of_int_rounds_to_even :
  of_int (2 ^ 53 + 1) = Some (S754_finite false (2 ^ 52) 1)
  /\ of_int (2 ^ 53 + 3) = Some (S754_finite false (2 ^ 52 + 2) 1)
  /\ of_int (2 ^ 1024) = None
  /\ trunc (ratio (-7) 2) = Some (-3).
Proof. vm_compute. repeat split. Qed.

Example test_client_basic :
  map (fun c => fst (calc (fst c) (snd c)))
    [("add", {[ "a" := VInt 5; "b" := VInt 3 ]});
     ("subtract", {[ "a" := VInt 10; "b" := VInt 4 ]});
     ("multiply", {[ "a" := VInt 6; "b" := VInt 7 ]});
     ("divide", {[ "a" := VInt 15; "b" := VInt 3 ]});
     ("power", {[ "base" := VInt 2; "exponent" := VInt 8 ]});
     ("square_root", {[ "number" := VInt 64 ]});
     ("factorial", {[ "number" := VInt 5 ]})]
  = map (fun t => Return (mkCallToolResult [mkTextContent "text" t]))
      ["5 + 3 = 8"; "10 - 4 = 6"; "6 × 7 = 42"; "15 ÷ 3 = 5.0"; "2^8 = 256";
       "√64 = 8.0"; "5! = 120"].
Proof. vm_compute. reflexivity. Qed.

Example test_client_errors :
  map (fun c => fst (calc (fst c) (snd c)))
    [("divide", {[ "a" := VInt 10; "b" := VInt 0 ]});
     ("square_root", {[ "number" := VInt (-4) ]});
     ("factorial", {[ "number" := VInt (-1) ]});
     ("random_number", {[ "min" := VInt 10; "max" := VInt 5 ]});
     ("unknown_tool", {[ "test" := VStr "value" ]})]
  = map (fun t => Return (mkCallToolResult [mkTextContent "text" t]))
      ["Error: Division by zero is not allowed";
       "Error: Cannot calculate square root of negative number";
       "Error: Factorial is not defined for negative numbers";
       "Error: Minimum value cannot be greater than maximum value";
       "Unknown tool: unknown_tool"].
Proof. vm_compute. reflexivity. Qed.

Example simple_client_calls :
  fst (tmpl "echo" {[ "text" := VStr "Hello from MCP client!" ]}) =
    Return (mkCallToolResult [mkTextContent "text" "Echo: Hello from MCP client!"])
  /\ fst (tmpl "calculate" {[ "expression" := VStr "10 + 5 * 2" ]}) =
       Return (mkCallToolResult [mkTextContent "text" "Result: 20"]).
Proof. vm_compute. split; reflexivity. Qed.

(** ** The monad *)

Section MonadFacts.
Context {G : Type}.
Implicit Types s : state G.

Lemma try_except_return {A} (body : M (G:=G) A) handler s a s' :
  body s = (Return a, s') -> try_except body handler s = (Return a, s').
Proof. unfold try_except. intros ->. reflexivity. Qed.


Lemma try_except_escapes {A} (body : M (G:=G) A) handler s cls s' :
  body s = (Raise (BaseExc cls), s') ->
  try_except body handler s = (Raise (BaseExc cls), s').
Proof. unfold try_except. intros ->. reflexivity. Qed.

Lemma catchable_ret {A} (P : A -> Prop) a : P a -> catchable (G:=G) P (ret a).
Proof. intros HP s. exact HP. Qed.

Lemma catchable_lift {A} (x : A + error) : catchable (G:=G) (fun _ => True) (lift x).
Proof. intros s. destruct x; exact Logic.I. Qed.

Lemma catchable_bind {A B} (P : B -> Prop) (m : M (G:=G) A) (k : A -> M (G:=G) B) :
  catchable (fun _ => True) m -> (forall a, catchable P (k a)) ->
  catchable P (bind m k).
Proof.
  intros Hm Hk s. unfold bind. specialize (Hm s).
  destruct (m s) as [[a | [e | cls]] s1]; try easy.
  apply Hk.
Qed.

Lemma catchable_randint I lo hi :
  catchable (G:=G) (fun _ => True) (random_randint I lo hi).
Proof.
  intros s. unfold random_randint. destruct (hi <? lo); [exact Logic.I |].
  destruct (draw I lo hi (rng s)). exact Logic.I.
Qed.

Lemma catchable_try_except {A} (P : A -> Prop) (body : M (G:=G) A) handler :
  (forall e, catchable P (handler e)) -> 
  (forall s a s', body s = (Return a, s') -> P a) ->
  (forall s cls s', body s <> (Raise (BaseExc cls), s')) ->
  catchable P (try_except body handler).
Proof.
  intros Hh Hr Hb s. unfold try_except.
  destruct (body s) as [[a | [e | cls]] s1] eqn:E.
  - eapply Hr, E.
  - apply Hh.
  - exfalso. eapply Hb, E.
Qed.

End MonadFacts.

(** ** Dispatch *)

Ltac catch :=
  cbv zeta;
  repeat first
    [ apply catchable_ret; discriminate
    | apply catchable_bind;
      [ first [ apply catchable_lift | apply catchable_randint ] | intros ? ]
    | match goal with
      | |- catchable _ (if ?b then _ else _) => destruct b
      end ].

Lemma calculator_body_catchable {G} (I : interp G) name arguments :
  catchable (fun r => content r <> []) (Calculator.call_tool_body I name arguments).
Proof.
  unfold Calculator.call_tool_body.
  repeat match goal with
         | |- catchable _ (if (?n =? ?m)%string then _ else _) =>
             destruct (n =? m)%string
         end;
    unfold Calculator.tool_add, Calculator.tool_subtract, Calculator.tool_multiply,
      Calculator.tool_divide, Calculator.tool_power, Calculator.tool_square_root,
      Calculator.tool_random_number, Calculator.tool_factorial, Calculator.text;
    catch.
Qed.


Lemma not_in_cons_neq (name n : string) l : ~ In name (n :: l) -> (name =? n)%string = false /\ ~ In name l.
Proof.
  intros H. split.
  - apply String.eqb_neq. intros ->. apply H. left. reflexivity.
  - intros Hin. apply H. right. exact Hin.
Qed.

(** C2: a CallTool request for a name that ListTools does not list is
    answered, in both servers, by a returned result whose single text block
    is "Unknown tool: " followed by the name; nothing is raised and the
    state is left as it was. *)
Theorem unknown_tool_is_reported {G} (I : interp G) (eval : value -> outcome string)
    (name : string) (arguments : gmap string value) (s : state G) :
  (~ In name Calculator.tool_names ->
   Calculator.handle_call_tool I name arguments s =
     (Return (mkCallToolResult [mkTextContent "text" ("Unknown tool: " +:+ name)]), s))
  /\ (~ In name Template.tool_names ->
      Template.handle_call_tool I eval name arguments s =
        (Return (mkCallToolResult [mkTextContent "text" ("Unknown tool: " +:+ name)]), s)).
Proof.
  split; intros H.
  - cbv beta iota delta [Calculator.tool_names Calculator.handle_list_tools map tool_name] in H.
    unfold Calculator.handle_call_tool, Calculator.call_tool_body.
    repeat (apply not_in_cons_neq in H; destruct H as [-> H]).
    reflexivity.
  - cbv beta iota delta [Template.tool_names Template.handle_list_tools map tool_name] in H.
    unfold Template.handle_call_tool, Template.call_tool_body.
    repeat (apply not_in_cons_neq in H; destruct H as [-> H]).
    reflexivity.
Qed.

Lemma unknown_tool_is_reported_witness :
  calc "unknown_tool" {[ "test" := VStr "value" ]} =
    (Return (mkCallToolResult [mkTextContent "text" "Unknown tool: unknown_tool"]), fresh)
  /\ tmpl "unknown_tool" {[ "test" := VStr "value" ]} =
    (Return (mkCallToolResult [mkTextContent "text" "Unknown tool: unknown_tool"]), fresh).
Proof.
  split.
  - apply (proj1 (unknown_tool_is_reported tower_only eval_sample "unknown_tool"
                    {[ "test" := VStr "value" ]} fresh)).
    unfold Calculator.tool_names. simpl. intuition discriminate.
  - apply (proj2 (unknown_tool_is_reported tower_only eval_sample "unknown_tool"
                    {[ "test" := VStr "value" ]} fresh)).
    unfold Template.tool_names. simpl. intuition discriminate.
Defined.

(** C6: calling the template's 'echo' with [{text: s}], whatever else the
    arguments hold, returns the single text block "Echo: " followed by [s];
    with "hi" it is "Echo: hi". *)
Theorem echo_returns_text {G} (I : interp G) (eval : value -> outcome string)
    (text_ : string) (arguments : gmap string value) (s : state G) :
  Template.handle_call_tool I eval "echo" (<["text" := VStr text_]> arguments) s =
    (Return (mkCallToolResult [mkTextContent "text" ("Echo: " +:+ text_)]), s)
  /\ tmpl "echo" {[ "text" := VStr "hi" ]} =
       (Return (mkCallToolResult [mkTextContent "text" "Echo: hi"]), fresh).
Proof.
  split; [| reflexivity].
  unfold Template.handle_call_tool, Template.call_tool_body, Template.tool_echo, get.
  simpl. rewrite lookup_insert_eq. reflexivity.
Qed.



(** ** Arguments *)

Lemma get_insert_eq (arguments : gmap string value) key v default :
  get (<[key := v]> arguments) key default = v.
Proof. unfold get. rewrite lookup_insert_eq. reflexivity. Qed.

Lemma get_insert_ne (arguments : gmap string value) key v key' default :
  key <> key' -> get (<[key := v]> arguments) key' default = get arguments key' default.
Proof. intros H. unfold get. rewrite lookup_insert_ne by exact H. reflexivity. Qed.

Lemma get_missing (arguments : gmap string value) key default :
  arguments !! key = None -> get arguments key default = default.
Proof. unfold get. intros ->. reflexivity. Qed.

Ltac fallback H :=
  rewrite ?get_insert_eq, ?get_insert_ne by discriminate;
  rewrite ?(get_missing _ _ _ H); reflexivity.

(** C1, as the code has it: no request is checked against the schema.  A
    parameter the request omits is read through [arguments.get] with its
    fallback, so in both servers the tool's branch runs and the response,
    and the state it leaves, are those of the same request with the
    fallback supplied. *)
Theorem missing_parameter_falls_back {G} (I : interp G) (eval : value -> outcome string)
    (name key : string) (default : value) (arguments : gmap string value)
    (s : state G) :
  arguments !! key = None ->
  (In (name, key, default) Calculator.fallbacks ->
   Calculator.handle_call_tool I name arguments s =
     Calculator.handle_call_tool I name (<[key := default]> arguments) s)
  /\ (In (name, key, default) Template.fallbacks ->
      Template.handle_call_tool I eval name arguments s =
        Template.handle_call_tool I eval name (<[key := default]> arguments) s).
Proof.
  intros H. split; intros Hin; simpl in Hin;
    repeat (destruct Hin as [[= <- <- <-] | Hin]; [| try contradiction]);
    unfold Calculator.handle_call_tool, Calculator.call_tool_body,
      Template.handle_call_tool, Template.call_tool_body;
    cbn [String.eqb Ascii.eqb Bool.eqb];
    unfold Calculator.tool_add, Calculator.tool_subtract, Calculator.tool_multiply,
      Calculator.tool_divide, Calculator.tool_power, Calculator.tool_square_root,
      Calculator.tool_random_number, Calculator.tool_factorial,
      Template.tool_echo, Template.tool_calculate;
    fallback H.
Qed.

Lemma missing_parameter_falls_back_witness :
  calc "add" {[ "a" := VInt 10 ]} = calc "add" (<["b" := VInt 0]> {[ "a" := VInt 10 ]}).
Proof.
  refine (proj1 (missing_parameter_falls_back tower_only eval_sample "add" "b" (VInt 0)
                   {[ "a" := VInt 10 ]} fresh _) _).
  - vm_compute. reflexivity.
  - simpl. tauto.
Defined.

(** C1, as stated, fails: 'add' declares [b] required, yet the call with
    [{a: 10}] runs the addition with 0 for [b] and answers "10 + 0 = 10",
    a text that reports no failure and does not name [b]. *)
Lemma add_without_b_is_answered :
  (exists t, In t Calculator.handle_list_tools /\ tool_name t = "add"
             /\ In "b" (required (inputSchema t)))
  /\ calc "add" {[ "a" := VInt 10 ]} =
       (Return (mkCallToolResult [mkTextContent "text" "10 + 0 = 10"]), fresh)
  /\ mentions "b" "10 + 0 = 10" = false.
Proof.
  split; [| split; reflexivity].
  eexists. split; [left; reflexivity |]. split; [reflexivity |]. simpl. tauto.
Qed.

(** ** Arithmetic *)










Lemma trunc_nonneg f n :
  num_lt (NFloat f) (NInt 0) = false -> trunc f = Some n -> 0 <= n.
Proof.
  destruct f as [sg | sg | | sg m e]; try discriminate.
  - intros _ [= <-]. reflexivity.
  - unfold num_lt, num_compare, compare_int, trunc.
    destruct sg; cbn [cond_Zopp Z.opp].
    + intros H _. exfalso. revert H.
      destruct (0 <=? e) eqn:He.
      * apply Z.leb_le in He.
        assert (Hlt : - Z.pos m * 2 ^ e < 0).
        { apply Z.mul_neg_pos; [lia | apply Z.pow_pos_nonneg; lia]. }
        apply Z.compare_lt_iff in Hlt. rewrite Hlt. discriminate.
      * rewrite Z.mul_0_l. discriminate.
    + intros _ [= <-].
      destruct (0 <=? e) eqn:He.
      * apply Z.leb_le in He. apply Z.mul_nonneg_nonneg; [lia | apply Z.pow_nonneg; lia].
      * apply Z.leb_gt in He. apply Z.div_pos; [lia | apply Z.pow_pos_nonneg; lia].
Qed.

(** C8, as the code has it: 'factorial' checks no type.  A float [x], integral
    or not, that is neither below 0 nor above 170 is truncated toward zero
    by [int()], and the text is "<x>! = " followed by the factorial of the
    truncation. *)
Theorem factorial_truncates {G} (I : interp G) (x : float) (n : Z)
    (arguments : gmap string value) (s : state G) :
  py_lt I (VFloat x) (VInt 0) = inl false ->
  py_gt I (VFloat x) (VInt 170) = inl false ->
  trunc x = Some n ->
  Calculator.handle_call_tool I "factorial" (<["number" := VFloat x]> arguments) s =
    (Return (mkCallToolResult
               [mkTextContent "text"
                  (repr x +:+ "! = " +:+ pretty (product_upto (Z.to_nat n)))]),
     s).
Proof.
  intros Hlt Hgt Hn.
  unfold Calculator.handle_call_tool, Calculator.call_tool_body.
  cbn [String.eqb Ascii.eqb Bool.eqb]. unfold Calculator.tool_factorial.
  rewrite get_insert_eq. unfold try_except, bind.
  rewrite Hlt. cbn [lift ret]. rewrite Hgt. cbn [lift ret].
  unfold py_int, num_int. cbn [as_num]. rewrite Hn. cbn [lift ret].
  unfold math_factorial.
  assert (Hn0 : (n <? 0) = false).
  { apply Z.ltb_ge. apply (trunc_nonneg x); [| exact Hn].
    unfold py_lt, compare_with in Hlt. cbn [as_num] in Hlt. congruence. }
  rewrite Hn0. reflexivity.
Qed.

Lemma factorial_truncates_witness :
  calc "factorial" {[ "number" := VFloat (ratio 5 2) ]} =
    (Return (mkCallToolResult [mkTextContent "text" "2.5! = 2"]), fresh).
Proof.
  exact (factorial_truncates tower_only (ratio 5 2) 2 ∅ fresh eq_refl eq_refl eq_refl).
Defined.

(** C8, as stated, fails: 'factorial' declares [number] an integer, yet the
    call with [{number: 2.5}] is not rejected; the handler computes 2! from
    the truncated value and answers "2.5! = 2". *)
Lemma factorial_of_two_and_a_half :
  (exists t, In t Calculator.handle_list_tools /\ tool_name t = "factorial"
             /\ map (fun p => prop_type (snd p)) (properties (inputSchema t)) = ["integer"])
  /\ trunc (ratio 5 2) = Some 2 /\ repr (ratio 5 2) = "2.5"
  /\ calc "factorial" {[ "number" := VFloat (ratio 5 2) ]} =
       (Return (mkCallToolResult [mkTextContent "text" "2.5! = 2"]), fresh).
Proof.
  split; [| repeat split; vm_compute; reflexivity].
  eexists. split; [do 7 right; left; reflexivity |]. split; reflexivity.
Qed.

(** ** Faults *)




(** ** Resources *)




(** * Further properties of the handlers *)

(** ** State *)

Section StateFacts.
Context {G : Type}.

Lemma stateless_ret {A} (a : A) : stateless (G:=G) (ret a).
Proof. exists (Return a). reflexivity. Qed.

Lemma stateless_lift {A} (x : A + error) : stateless (G:=G) (lift x).
Proof. destruct x as [a | e]; [exists (Return a) | exists (Raise (Exc e))]; reflexivity. Qed.

Lemma stateless_bind {A B} (m : M (G:=G) A) (k : A -> M (G:=G) B) :
  stateless m -> (forall a, stateless (k a)) -> stateless (bind m k).
Proof.
  intros [[a | r] Hm] Hk.
  - destruct (Hk a) as [o Ho]. exists o. intros s. unfold bind. rewrite Hm. apply Ho.
  - exists (Raise r). intros s. unfold bind. rewrite Hm. reflexivity.
Qed.

Lemma keeps_log_ret {A} (a : A) : keeps_log (G:=G) (ret a).
Proof. intros s. reflexivity. Qed.

Lemma keeps_log_lift {A} (x : A + error) : keeps_log (G:=G) (lift x).
Proof. intros s. destruct x; reflexivity. Qed.

Lemma keeps_log_bind {A B} (m : M (G:=G) A) (k : A -> M (G:=G) B) :
  keeps_log m -> (forall a, keeps_log (k a)) -> keeps_log (bind m k).
Proof.
  intros Hm Hk s. unfold bind. specialize (Hm s).
  destruct (m s) as [[a | r] s1]; simpl in *; [| exact Hm].
  rewrite Hk. exact Hm.
Qed.

Lemma keeps_log_randint (I : interp G) lo hi : keeps_log (random_randint I lo hi).
Proof.
  intros s. unfold random_randint. destruct (hi <? lo); [reflexivity |].
  destruct (draw I lo hi (rng s)). reflexivity.
Qed.

Lemma stateless_keeps_log {A} (m : M (G:=G) A) : stateless m -> keeps_log m.
Proof. intros [o Ho] s. rewrite Ho. reflexivity. Qed.
End StateFacts.

Ltac stateless_steps :=
  cbv zeta;
  repeat first
    [ apply stateless_ret
    | apply stateless_lift
    | apply stateless_bind; [| intros ?]
    | match goal with
      | |- stateless (if ?b then _ else _) => destruct b
      end ].

Ltac keeps_log_steps :=
  cbv zeta;
  repeat first
    [ apply keeps_log_ret
    | apply keeps_log_lift
    | apply keeps_log_randint
    | apply keeps_log_bind; [| intros ?]
    | match goal with
      | |- keeps_log (if ?b then _ else _) => destruct b
      end ].

Ltac unfold_tools :=
  unfold Calculator.tool_add, Calculator.tool_subtract, Calculator.tool_multiply,
    Calculator.tool_divide, Calculator.tool_power, Calculator.tool_square_root,
    Calculator.tool_random_number, Calculator.tool_factorial.

Lemma calculator_body_stateless {G} (I : interp G) name arguments :
  name <> "random_number" -> stateless (Calculator.call_tool_body I name arguments).
Proof.
  intros Hne. unfold Calculator.call_tool_body.
  repeat match goal with
         | |- stateless (if (?n =? ?m)%string then _ else _) =>
             destruct (String.eqb_spec n m) as [-> | _]
         end;
    try congruence; unfold_tools; stateless_steps.
Qed.

Lemma calculator_body_keeps_log {G} (I : interp G) name arguments :
  keeps_log (Calculator.call_tool_body I name arguments).
Proof.
  unfold Calculator.call_tool_body.
  repeat match goal with
         | |- keeps_log (if (?n =? ?m)%string then _ else _) =>
             destruct (n =? m)%string
         end;
    unfold_tools; keeps_log_steps.
Qed.

Section RngFacts.
Context {G : Type}.

Lemma rng_determined_stateless {A} (m : M (G:=G) A) : stateless m -> rng_determined m.
Proof. intros [o Ho] s1 s2 H. rewrite !Ho. split; [reflexivity | exact H]. Qed.

Lemma rng_determined_bind {A B} (m : M (G:=G) A) (k : A -> M (G:=G) B) :
  rng_determined m -> (forall a, rng_determined (k a)) -> rng_determined (bind m k).
Proof.
  intros Hm Hk s1 s2 H. unfold bind. destruct (Hm s1 s2 H) as [Ho Hr].
  destruct (m s1) as [o1 t1], (m s2) as [o2 t2]. simpl in Ho, Hr. subst o2.
  destruct o1 as [a | r]; [apply Hk; exact Hr | split; [reflexivity | exact Hr]].
Qed.

Lemma rng_determined_randint (I : interp G) lo hi :
  rng_determined (random_randint I lo hi).
Proof.
  intros s1 s2 H. unfold random_randint.
  destruct (hi <? lo); [split; [reflexivity | exact H] |].
  rewrite H. destruct (draw I lo hi (rng s2)). split; reflexivity.
Qed.
End RngFacts.

Ltac rng_steps :=
  cbv zeta;
  repeat first
    [ apply rng_determined_randint
    | apply rng_determined_stateless; first [ apply stateless_ret | apply stateless_lift ]
    | apply rng_determined_bind; [| intros ?]
    | match goal with
      | |- rng_determined (if ?b then _ else _) => destruct b
      end ].

Lemma calculator_body_rng_determined {G} (I : interp G) name arguments :
  rng_determined (Calculator.call_tool_body I name arguments).
Proof.
  unfold Calculator.call_tool_body.
  repeat match goal with
         | |- rng_determined (if (?n =? ?m)%string then _ else _) =>
             destruct (n =? m)%string
         end;
    unfold_tools; rng_steps.
Qed.

(** What a CallTool of the calculator does to the state.  It always
    returns.  Either the tool's branch returned that very result and the
    log is as it was, or the branch raised an [Exception] and exactly one
    line, "Error in tool call <name>: <str(e)>", was appended for the
    "Error: <str(e)>" result.  No log line is ever dropped, and only
    'random_number' advances the generator. *)
Theorem call_tool_state_discipline {G} (I : interp G) (name : string)
    (arguments : gmap string value) (s : state G) :
  exists r s',
    Calculator.handle_call_tool I name arguments s = (Return r, s')
    /\ ((Calculator.call_tool_body I name arguments s = (Return r, s')
         /\ log s' = log s)
        \/ (exists e s1,
              Calculator.call_tool_body I name arguments s = (Raise (Exc e), s1)
              /\ r = mkCallToolResult [mkTextContent "text" ("Error: " +:+ err_str e)]
              /\ rng s' = rng s1
              /\ log s' =
                   (log s ++ ["Error in tool call " +:+ name +:+ ": " +:+ err_str e])%list))
    /\ (name <> "random_number" -> rng s' = rng s).
Proof.
  pose proof (calculator_body_catchable I name arguments s) as Hc.
  pose proof (calculator_body_keeps_log I name arguments s) as Hl.
  assert (Hr : name <> "random_number" ->
               rng (snd (Calculator.call_tool_body I name arguments s)) = rng s).
  { intros Hne. destruct (calculator_body_stateless I name arguments Hne) as [o Ho].
    rewrite Ho. reflexivity. }
  unfold Calculator.handle_call_tool, try_except.
  destruct (Calculator.call_tool_body I name arguments s) as [[r | [e | cls]] s1];
    simpl in Hl, Hr; [| | contradiction].
  - exists r, s1. split; [reflexivity |]. split; [left; split; [reflexivity | exact Hl] | exact Hr].
  - eexists _, _. split; [reflexivity |]. split; [| exact Hr].
    right. exists e, s1. simpl. rewrite Hl. repeat split.
Qed.

(** The response of the calculator to a request does not depend on what
    has been logged: it is the same in any two states whose generators
    agree, and, for every tool but 'random_number', the same in any two
    states whatever. *)
Theorem responses_ignore_state {G} (I : interp G) (name : string)
    (arguments : gmap string value) (s1 s2 : state G) :
  (rng s1 = rng s2 ->
   fst (Calculator.handle_call_tool I name arguments s1) =
   fst (Calculator.handle_call_tool I name arguments s2))
  /\ (name <> "random_number" ->
      fst (Calculator.handle_call_tool I name arguments s1) =
      fst (Calculator.handle_call_tool I name arguments s2)).
Proof.
  assert (Hbody : fst (Calculator.call_tool_body I name arguments s1) =
                  fst (Calculator.call_tool_body I name arguments s2) ->
                  fst (Calculator.handle_call_tool I name arguments s1) =
                  fst (Calculator.handle_call_tool I name arguments s2)).
  { unfold Calculator.handle_call_tool, try_except.
    destruct (Calculator.call_tool_body I name arguments s1) as [o1 t1],
             (Calculator.call_tool_body I name arguments s2) as [o2 t2].
    simpl. intros <-. destruct o1 as [r | [e | cls]]; reflexivity. }
  split; intros H; apply Hbody.
  - apply (calculator_body_rng_determined I name arguments s1 s2 H).
  - destruct (calculator_body_stateless I name arguments H) as [o Ho].
    rewrite !Ho. reflexivity.
Qed.

Lemma responses_ignore_state_witness :
  fst (Calculator.handle_call_tool tower_only "divide"
         {[ "a" := VInt 1; "b" := VInt 0 ]} fresh) =
  fst (Calculator.handle_call_tool tower_only "divide"
         {[ "a" := VInt 1; "b" := VInt 0 ]} (State tt ["an earlier line"])).
Proof.
  apply (proj2 (responses_ignore_state tower_only "divide"
                  {[ "a" := VInt 1; "b" := VInt 0 ]} fresh (State tt ["an earlier line"]))).
  discriminate.
Defined.


(** ** Arguments the schema does not name, and defaults it declares *)

Ltac skip_other_key H :=
  repeat match goal with
         | |- context [get (<[?k := ?v]> ?m) ?k' ?d] =>
             rewrite (get_insert_ne m k v k' d)
               by (intros ->; apply (H d); simpl; tauto)
         end.

(** An argument under a key the tool does not read changes nothing: in
    both servers the response and the state are those of the request
    without it.  No tool rejects, or looks at, extra parameters. *)
Theorem extra_parameters_are_ignored {G} (I : interp G) (eval : value -> outcome string)
    (name key : string) (v : value) (arguments : gmap string value) (s : state G) :
  ((forall d, ~ In (name, key, d) Calculator.fallbacks) ->
   Calculator.handle_call_tool I name (<[key := v]> arguments) s =
   Calculator.handle_call_tool I name arguments s)
  /\ ((forall d, ~ In (name, key, d) Template.fallbacks) ->
      Template.handle_call_tool I eval name (<[key := v]> arguments) s =
      Template.handle_call_tool I eval name arguments s).
Proof.
  split; intros H.
  - unfold Calculator.handle_call_tool, Calculator.call_tool_body.
    repeat match goal with
           | |- context [(name =? ?m)%string] =>
               destruct (String.eqb_spec name m) as [-> | _]
           end;
      cbn [String.eqb Ascii.eqb Bool.eqb]; unfold_tools; skip_other_key H; reflexivity.
  - unfold Template.handle_call_tool, Template.call_tool_body.
    repeat match goal with
           | |- context [(name =? ?m)%string] =>
               destruct (String.eqb_spec name m) as [-> | _]
           end;
      cbn [String.eqb Ascii.eqb Bool.eqb];
      unfold Template.tool_echo, Template.tool_calculate; skip_other_key H; reflexivity.
Qed.

Lemma extra_parameters_are_ignored_witness :
  calc "add" (<["c" := VStr "extra"]> {[ "a" := VInt 5; "b" := VInt 3 ]}) =
  calc "add" {[ "a" := VInt 5; "b" := VInt 3 ]}.
Proof.
  apply (proj1 (extra_parameters_are_ignored tower_only eval_sample "add" "c"
                  (VStr "extra") {[ "a" := VInt 5; "b" := VInt 3 ]} fresh)).
  intros d. simpl. intuition discriminate.
Defined.

(** A default the calculator's catalogue declares for a parameter is the
    value its handler uses when the request omits the parameter: the
    response and the state are those of the request with the declared
    default supplied. *)
Theorem declared_defaults_are_applied {G} (I : interp G) (t : Tool) (key : string)
    (p : Property) (d : value) (arguments : gmap string value) (s : state G) :
  In t Calculator.handle_list_tools ->
  In (key, p) (properties (inputSchema t)) ->
  prop_default p = Some d ->
  arguments !! key = None ->
  Calculator.handle_call_tool I (tool_name t) arguments s =
  Calculator.handle_call_tool I (tool_name t) (<[key := d]> arguments) s.
Proof.
  intros Ht Hp Hd H. simpl in Ht.
  repeat (destruct Ht as [<- | Ht]; [| try contradiction]);
    simpl in Hp;
    repeat (destruct Hp as [[= <- <-] | Hp]; [| try contradiction]);
    simpl in Hd; try discriminate; injection Hd as <-;
    unfold Calculator.handle_call_tool, Calculator.call_tool_body;
    cbn [String.eqb Ascii.eqb Bool.eqb tool_name]; unfold_tools; fallback H.
Qed.

Lemma declared_defaults_are_applied_witness :
  calc "random_number" {[ "min" := VInt 7 ]} =
  calc "random_number" (<["max" := VInt 100]> {[ "min" := VInt 7 ]}).
Proof.
  refine (declared_defaults_are_applied tower_only
            (mkTool "random_number"
               "Generate a random number between min and max (inclusive)"
               (mkInputSchema "object"
                  [("min", mkProperty "number" "Minimum value (inclusive)" (Some (VInt 0)));
                   ("max", mkProperty "number" "Maximum value (inclusive)" (Some (VInt 100)))]
                  []))
            "max" (mkProperty "number" "Maximum value (inclusive)" (Some (VInt 100)))
            (VInt 100) {[ "min" := VInt 7 ]} fresh _ _ eq_refl _).
  - do 6 right. left. reflexivity.
  - right. left. reflexivity.
  - vm_compute. reflexivity.
Defined.

(** ** Resources *)


(** ** The other arithmetic tools *)







Lemma product_upto_fact k : product_upto k = Z.of_nat (fact k).
Proof.
  induction k as [| k IH]; [reflexivity |].
  change (product_upto (S k)) with (Z.of_nat (S k) * product_upto k).
  change (fact (S k)) with (S k * fact k)%nat.
  rewrite IH, Nat2Z.inj_mul. reflexivity.
Qed.

(** 'factorial' on an int [n] answers by range: below 0 the
    negative-number text, above 170 the too-large text, and from 0 to 170
    "<n>! = " followed by n! (the product 1 * 2 * ... * n), in every case as
    a returned result in an unchanged state: [math.factorial] is never
    called outside its domain. *)
Theorem factorial_of_ints {G} (I : interp G) (n : Z)
    (arguments : gmap string value) (s : state G) :
  (n < 0 ->
   Calculator.handle_call_tool I "factorial" (<["number" := VInt n]> arguments) s =
     (Return (mkCallToolResult
                [mkTextContent "text"
                   "Error: Factorial is not defined for negative numbers"]),
      s))
  /\ (170 < n ->
      Calculator.handle_call_tool I "factorial" (<["number" := VInt n]> arguments) s =
        (Return (mkCallToolResult
                   [mkTextContent "text"
                      "Error: Number too large for factorial calculation"]),
         s))
  /\ (0 <= n <= 170 ->
      Calculator.handle_call_tool I "factorial" (<["number" := VInt n]> arguments) s =
        (Return (mkCallToolResult
                   [mkTextContent "text"
                      (pretty n +:+ "! = " +:+ pretty (Z.of_nat (fact (Z.to_nat n))))]),
         s)).
Proof.
  unfold Calculator.handle_call_tool, Calculator.call_tool_body.
  cbn [String.eqb Ascii.eqb Bool.eqb]. unfold_tools.
  rewrite get_insert_eq.
  unfold try_except, bind, py_lt, py_gt, compare_with, num_lt, num_gt, num_compare,
    py_int, num_int, math_factorial.
  cbn [as_num lift ret].
  split; [| split]; intros H.
  - apply Z.compare_lt_iff in H. rewrite H. reflexivity.
  - assert (H0 : (n ?= 0) = Gt) by (apply Z.compare_gt_iff; lia).
    assert (H1 : (n ?= 170) = Gt) by (apply Z.compare_gt_iff; lia).
    rewrite H0, H1. reflexivity.
  - assert (H0 : (n ?= 0) <> Lt) by (rewrite Z.compare_lt_iff; lia).
    assert (H1 : (n ?= 170) <> Gt) by (rewrite Z.compare_gt_iff; lia).
    assert (H2 : (n <? 0) = false) by (apply Z.ltb_ge; lia).
    destruct (n ?= 0); try congruence; destruct (n ?= 170); try congruence;
      cbn [lift ret]; rewrite H2, product_upto_fact; reflexivity.
Qed.

Lemma factorial_of_ints_witness :
  calc "factorial" {[ "number" := VInt (-1) ]} =
    (Return (mkCallToolResult
               [mkTextContent "text"
                  "Error: Factorial is not defined for negative numbers"]), fresh)
  /\ calc "factorial" {[ "number" := VInt 171 ]} =
       (Return (mkCallToolResult
                  [mkTextContent "text"
                     "Error: Number too large for factorial calculation"]), fresh)
  /\ calc "factorial" {[ "number" := VInt 6 ]} =
       (Return (mkCallToolResult [mkTextContent "text" "6! = 720"]), fresh).
Proof.
  split; [| split].
  - apply (proj1 (factorial_of_ints tower_only (-1) ∅ fresh)). reflexivity.
  - apply (proj1 (proj2 (factorial_of_ints tower_only 171 ∅ fresh))). reflexivity.
  - apply (proj2 (proj2 (factorial_of_ints tower_only 6 ∅ fresh))). split; discriminate.
Defined.



(** ** Square roots *)

Lemma shr_1_nonneg mrs : 0 <= shr_m mrs -> 0 <= shr_m (shr_1 mrs).
Proof.
  destruct mrs as [m r t]. simpl. intros H.
  destruct m as [| [p | p |] | p]; simpl; lia.
Qed.

Lemma iter_shr_1_nonneg p mrs :
  0 <= shr_m mrs -> 0 <= shr_m (SpecFloat.iter_pos shr_1 p mrs).
Proof.
  revert mrs. induction p as [p IH | p IH |]; intros mrs H; simpl.
  - apply IH, IH, shr_1_nonneg, H.
  - apply IH, IH, H.
  - apply shr_1_nonneg, H.
Qed.

Lemma shr_fexp_nonneg m e l :
  0 <= m -> 0 <= shr_m (fst (shr_fexp prec emax m e l)).
Proof.
  intros H. unfold shr_fexp, shr.
  assert (H0 : 0 <= shr_m (shr_record_of_loc m l)) by (destruct l as [| []]; exact H).
  destruct (fexp prec emax (Zdigits2 m + e) - e); simpl;
    [exact H0 | apply iter_shr_1_nonneg, H0 | exact H0].
Qed.

Lemma round_nearest_even_nonneg m l : 0 <= m -> 0 <= round_nearest_even m l.
Proof.
  intros H. unfold round_nearest_even.
  destruct l as [| []]; try destruct (Z.even m); lia.
Qed.

(** Rounding a non-negative mantissa gives a number of the requested sign,
    never a NaN. *)
Lemma binary_round_aux_sign sx mx ex lx :
  0 <= mx ->
  match binary_round_aux prec emax sx mx ex lx with
  | S754_nan => False
  | S754_zero sg | S754_infinity sg | S754_finite sg _ _ => sg = sx
  end.
Proof.
  intros H. unfold binary_round_aux.
  pose proof (shr_fexp_nonneg mx ex lx H) as H1.
  destruct (shr_fexp prec emax mx ex lx) as [mrs1 e1]. simpl in H1.
  pose proof (shr_fexp_nonneg _ e1 loc_Exact
                (round_nearest_even_nonneg _ (loc_of_shr_record mrs1) H1)) as H2.
  destruct (shr_fexp prec emax _ e1 loc_Exact) as [mrs2 e2]. simpl in H2.
  destruct (shr_m mrs2) as [| p | p]; [reflexivity | | lia].
  destruct (e2 <=? emax - prec); reflexivity.
Qed.

Lemma of_int_nonneg n f :
  0 <= n -> of_int n = Some f ->
  f = S754_zero false \/ exists m e, f = S754_finite false m e.
Proof.
  intros Hn. unfold of_int, binary_normalize.
  destruct n as [| p | p]; [intros [= <-]; left; reflexivity | | lia].
  unfold binary_round.
  destruct (shl_align p 0 _) as [mz ez].
  pose proof (binary_round_aux_sign false (Z.pos mz) ez loc_Exact ltac:(lia)) as Hs.
  destruct (binary_round_aux prec emax false (Z.pos mz) ez loc_Exact) as [sg | sg | | sg m e];
    try discriminate; subst sg; intros [= <-]; [left | right; eauto]; reflexivity.
Qed.

Lemma fsqrt_of_positive m e : fsqrt (S754_finite false m e) <> S754_nan.
Proof.
  unfold fsqrt, SFsqrt.
  destruct (SFsqrt_core_binary prec emax (Z.pos m) e) as [[mz ez] lz] eqn:E.
  assert (Hmz : 0 <= mz).
  { unfold SFsqrt_core_binary in E.
    match type of E with
    | context [Z.sqrtrem ?x] =>
        assert (Hx : 0 <= x)
          by (destruct (e - 2 * _); [lia | apply Z.shiftl_nonneg; lia | lia]);
        pose proof (Z.sqrtrem_spec x Hx) as Hs;
        destruct (Z.sqrtrem x) as [q r]
    end.
    injection E as <- _ _. lia. }
  pose proof (binary_round_aux_sign false mz ez lz Hmz) as Hs.
  destruct (binary_round_aux prec emax false mz ez lz); [discriminate .. | contradiction | discriminate].
Qed.

(** Past the guard [number < 0], [math.sqrt] is inside its domain: the root
    of a number that is not below 0 is a NaN only when the number is. *)
Lemma sqrt_defined x f :
  num_lt x (NInt 0) = false -> to_float x = inl f ->
  fsqrt f = S754_nan -> f = S754_nan.
Proof.
  intros Hlt Hf Hs. destruct x as [n | g]; simpl in Hf.
  - destruct (of_int n) as [f' |] eqn:E; [| discriminate]. injection Hf as ->.
    assert (Hn : 0 <= n).
    { unfold num_lt, num_compare in Hlt. destruct (n ?= 0) eqn:C; try discriminate.
      - apply Z.compare_eq in C. lia.
      - apply Z.compare_gt_iff in C. lia. }
    destruct (of_int_nonneg n f Hn E) as [-> | (m & e & ->)]; [discriminate |].
    exfalso. exact (fsqrt_of_positive m e Hs).
  - injection Hf as ->.
    destruct f as [sg | sg | | sg m e]; try discriminate; [| reflexivity |].
    + destruct sg; discriminate.
    + destruct sg; [| exfalso; exact (fsqrt_of_positive m e Hs)].
      exfalso. revert Hlt. unfold num_lt, num_compare, compare_int. cbn [cond_Zopp Z.opp].
      destruct (0 <=? e) eqn:He.
      * apply Z.leb_le in He.
        assert (Hneg : - Z.pos m * 2 ^ e < 0)
          by (apply Z.mul_neg_pos; [lia | apply Z.pow_pos_nonneg; lia]).
        apply Z.compare_lt_iff in Hneg. rewrite Hneg. discriminate.
      * rewrite Z.mul_0_l. discriminate.
Qed.

(** 'square_root' on a number (bool, int or float): when it is below 0 the
    answer is the negative-number text; otherwise it is
    "√<number> = <root>" with the correctly rounded root, except that an int
    too large to become a float is reported as such.  In no case does
    [math.sqrt] raise its domain error, and the state is unchanged unless
    the overflow is logged. *)
Theorem square_root_stays_in_domain {G} (I : interp G) (number : value) (x : num)
    (arguments : gmap string value) (s : state G) :
  as_num number = Some x ->
  if num_lt x (NInt 0) then
    Calculator.handle_call_tool I "square_root" (<["number" := number]> arguments) s =
      (Return (mkCallToolResult
                 [mkTextContent "text"
                    "Error: Cannot calculate square root of negative number"]),
       s)
  else
    match to_float x with
    | inl f =>
        Calculator.handle_call_tool I "square_root" (<["number" := number]> arguments) s =
          (Return (mkCallToolResult
                     [mkTextContent "text"
                        ("√" +:+ py_str I number +:+ " = " +:+ repr (fsqrt f))]),
           s)
    | inr e =>
        e = overflow_int_to_float
        /\ fst (Calculator.handle_call_tool I "square_root"
                  (<["number" := number]> arguments) s) =
             Return (mkCallToolResult
                       [mkTextContent "text" "Error: int too large to convert to float"])
    end.
Proof.
  intros Hx.
  unfold Calculator.handle_call_tool, Calculator.call_tool_body.
  cbn [String.eqb Ascii.eqb Bool.eqb]. unfold_tools.
  rewrite get_insert_eq.
  unfold try_except, bind, py_lt, compare_with, math_sqrt. rewrite Hx.
  change (as_num (VInt 0)) with (Some (NInt 0)). cbn [lift ret].
  destruct (num_lt x (NInt 0)) eqn:Hlt; [reflexivity |].
  destruct (to_float x) as [f | e] eqn:Hf.
  - pose proof (sqrt_defined x f Hlt Hf) as Hd.
    destruct (fsqrt f) eqn:Hs; try reflexivity.
    rewrite (Hd eq_refl). reflexivity.
  - split; [| destruct x; simpl in Hf; [destruct (of_int n) |]; inversion Hf; reflexivity].
    destruct x; simpl in Hf; [destruct (of_int n) |]; inversion Hf; reflexivity.
Qed.

Lemma square_root_stays_in_domain_witness :
  calc "square_root" {[ "number" := VInt 2 ]} =
    (Return (mkCallToolResult [mkTextContent "text" "√2 = 1.4142135623730951"]), fresh)
  /\ calc "square_root" {[ "number" := VFloat (ratio (-1) 4) ]} =
       (Return (mkCallToolResult
                  [mkTextContent "text"
                     "Error: Cannot calculate square root of negative number"]), fresh).
Proof.
  split.
  - exact (square_root_stays_in_domain tower_only (VInt 2) (NInt 2) ∅ fresh eq_refl).
  - exact (square_root_stays_in_domain tower_only (VFloat (ratio (-1) 4))
             (NFloat (ratio (-1) 4)) ∅ fresh eq_refl).
Defined.

(** ** The catalogue against the handlers *)




(** The template's 'calculate' hands [eval] the argument under
    "expression", or the empty string when the request has none, and
    nothing else of the request; when [eval] returns, the answer is the
    single text block "Result: " followed by the value's [str()]. *)
Theorem calculate_reports_eval {G} (I : interp G) (eval : value -> outcome string)
    (arguments : gmap string value) (result : string) (s : state G) :
  eval (get arguments "expression" (VStr "")) = Return result ->
  Template.handle_call_tool I eval "calculate" arguments s =
    (Return (mkCallToolResult [mkTextContent "text" ("Result: " +:+ result)]), s).
Proof.
  intros H.
  unfold Template.handle_call_tool, Template.call_tool_body, Template.tool_calculate.
  cbn [String.eqb Ascii.eqb Bool.eqb]. unfold try_except, bind. rewrite H. reflexivity.
Qed.

Lemma calculate_reports_eval_witness :
  tmpl "calculate" {[ "expression" := VStr "10 + 5 * 2" ]} =
    (Return (mkCallToolResult [mkTextContent "text" "Result: 20"]), fresh).
Proof.
  apply (calculate_reports_eval tower_only eval_sample
           {[ "expression" := VStr "10 + 5 * 2" ]} "20" fresh).
  vm_compute. reflexivity.
Defined.
